(** * SES domain-verification custom resource handler

    A shallow embedding of [cdk/lib/lambda/ses_verification_handler.py]
    and the properties of its three functions [handler],
    [create_or_update_verification] and [delete_verification].

    The handler talks to two remote services through boto3 clients.  The
    services are kept abstract (class [AwsServices]): each call takes the
    state of the outside world and gives back either an exception or a
    response, together with the new state of the world.  The Python code
    becomes a computation in a state-and-exception monad that also records
    every remote call and every log line, in order. *)

From Stdlib Require Import Ascii String ZArith.
From stdpp Require Import base option list strings gmap.

Local Open Scope string_scope.

(** ** Strings *)

(** The double-quote character, code point 34. *)
Definition dquote : ascii := Ascii.ascii_of_nat 34.

(** [s.rstrip(c)] for a one-character set: every trailing [c] is dropped. *)
Fixpoint rstrip (c : ascii) (s : string) : string :=
  match s with
  | EmptyString => EmptyString
  | String a s' =>
      match rstrip c s' with
      | EmptyString => if Ascii.eqb a c then EmptyString else String a EmptyString
      | r => String a r
      end
  end.

(** [n] copies of the character [c]. *)
Fixpoint replicate_char (n : nat) (c : ascii) : string :=
  match n with
  | O => EmptyString
  | S n' => String c (replicate_char n' c)
  end.

(** The last character of a string, if any. *)
Fixpoint last_char (s : string) : option ascii :=
  match s with
  | EmptyString => None
  | String a EmptyString => Some a
  | String _ s' => last_char s'
  end.

(** [c in s] for a character. *)
Fixpoint contains_char (c : ascii) (s : string) : bool :=
  match s with
  | EmptyString => false
  | String a s' => Ascii.eqb a c || contains_char c s'
  end.

(** [repr(s)] for a [str].  A character of a string stands for the code
    point of the same number, below 256.  Python takes the single quote as
    delimiter unless the string holds single quotes and no double quote;
    it escapes the delimiter and the backslash, writes tab, line feed and
    carriage return as backslash-t, backslash-n and backslash-r, and every
    other character that is not printable as backslash-x and two lower-case
    hexadecimal digits.  Below 256 the characters that are not printable
    are the control characters (0 to 31, 127 to 159), the no-break space
    (160) and the soft hyphen (173). *)
Definition printable (c : ascii) : bool :=
  let n := nat_of_ascii c in
  Nat.leb 32 n && negb (Nat.leb 127 n && Nat.leb n 160) && negb (Nat.eqb n 173).

Definition hex_digit (n : nat) : ascii :=
  match String.get n "0123456789abcdef" with
  | Some c => c
  | None => "0"%char
  end.

Definition repr_char (quote c : ascii) : string :=
  if Ascii.eqb c quote || Ascii.eqb c "\" then String "\" (String c EmptyString)
  else if Ascii.eqb c (ascii_of_nat 9) then "\t"
  else if Ascii.eqb c (ascii_of_nat 10) then "\n"
  else if Ascii.eqb c (ascii_of_nat 13) then "\r"
  else if printable c then String c EmptyString
  else
    String "\" (String "x"
      (String (hex_digit (Nat.div (nat_of_ascii c) 16))
         (String (hex_digit (Nat.modulo (nat_of_ascii c) 16)) EmptyString))).

Fixpoint repr_body (quote : ascii) (s : string) : string :=
  match s with
  | EmptyString => EmptyString
  | String a s' => repr_char quote a +:+ repr_body quote s'
  end.

Definition py_repr (s : string) : string :=
  let quote :=
    if contains_char "'" s && negb (contains_char dquote s) then dquote
    else "'"%char in
  String quote (repr_body quote s +:+ String quote EmptyString).

(** ** Data model *)

(** The exceptions the module can see: the KeyError of a dict lookup, the
    ValueError of line 26, and any exception that boto3 raises, known by
    its text.  [str_exn] is Python's [str(e)]; for a KeyError it is the
    [repr] of the key. *)
Inductive exn : Type :=
  | KeyError (key : string)
  | ValueError (message : string)
  | ServiceError (message : string).

Definition str_exn (e : exn) : string :=
  match e with
  | KeyError k => py_repr k
  | ValueError m => m
  | ServiceError m => m
  end.

(** The lifecycle event: a dict whose keys may be absent.  The values of
    the resource properties are strings (the invocation contract). *)
Record Event : Type := mkEvent {
  RequestType : option string;
  ResourceProperties : option (gmap string string)
}.

(** Route 53 record sets, as the service returns them and as the handler
    builds them.  The key 'Type' is the field [Type_] ([Type] is a keyword),
    and an alias record set has no TTL. *)
Record ResourceRecord : Type := mkResourceRecord { Value : string }.

Record ResourceRecordSet : Type := mkResourceRecordSet {
  Name : string;
  Type_ : string;
  TTL : option Z;
  ResourceRecords : list ResourceRecord
}.

Record Change : Type := mkChange {
  Action : string;
  ChangeResourceRecordSet : ResourceRecordSet
}.

Record ChangeBatch : Type := mkChangeBatch { Changes : list Change }.

(** Responses of the three remote calls. *)
Record VerifyDomainIdentityResponse : Type :=
  mkVerifyResponse { VerificationToken : string }.

Record ChangeInfo : Type := mkChangeInfo { Id : string }.

Record ChangeResourceRecordSetsResponse : Type :=
  mkChangeResponse { ChangeInfo_ : ChangeInfo }.

Record ListResourceRecordSetsResponse : Type :=
  mkListResponse { ResourceRecordSets : list ResourceRecordSet }.

(** What the handler returns to the deployment engine. *)
Record ResultData : Type := mkResultData {
  DataVerificationToken : string;
  DataRecordName : string;
  DataChangeId : string
}.

Record Result : Type := mkResult {
  PhysicalResourceId : string;
  Data : option ResultData
}.

(** ** Effects *)

(** A remote call, with the arguments the handler passed. *)
Inductive call : Type :=
  | SesVerifyDomainIdentity (region Domain : string)
  | Route53ChangeResourceRecordSets (HostedZoneId : string) (batch : ChangeBatch)
  | Route53ListResourceRecordSets
      (HostedZoneId StartRecordName StartRecordType : string).

Inductive level : Type := INFO | ERROR.

Inductive effect : Type :=
  | Call (c : call)
  | Log (l : level) (message : string).

(** The remote calls of a trace, in order; log lines are dropped. *)
Fixpoint calls_of (tr : list effect) : list call :=
  match tr with
  | [] => []
  | Call c :: tr' => c :: calls_of tr'
  | Log _ _ :: tr' => calls_of tr'
  end.

(** Every record change submitted to the DNS service by a list of calls. *)
Fixpoint submitted_changes (cs : list call) : list Change :=
  match cs with
  | [] => []
  | Route53ChangeResourceRecordSets _ batch :: cs' =>
      Changes batch ++ submitted_changes cs'
  | _ :: cs' => submitted_changes cs'
  end.

(** The collaborators.  [W] is the state of the outside world; a call may
    change it whether it succeeds or raises.  [boto3_client_ses region] is
    [boto3.client('ses', region_name=region)]: it sends nothing, and
    botocore raises from it when the region name is not well formed. *)
Class AwsServices (W : Type) : Type := {
  boto3_client_ses : string -> exn + unit;
  ses_verify_domain_identity :
    string -> string -> W -> (exn + VerifyDomainIdentityResponse) * W;
  route53_change_resource_record_sets :
    string -> ChangeBatch -> W -> (exn + ChangeResourceRecordSetsResponse) * W;
  route53_list_resource_record_sets :
    string -> string -> string -> W -> (exn + ListResourceRecordSetsResponse) * W
}.

(** ** The monad *)

Record state (W : Type) : Type := mkState {
  world : W;
  trace : list effect
}.
Arguments mkState {W} _ _.
Arguments world {W} _.
Arguments trace {W} _.

Definition M (W A : Type) : Type := state W -> (exn + A) * state W.

Definition ret {W A} (a : A) : M W A := fun s => (inr a, s).

Definition bind {W A B} (m : M W A) (k : A -> M W B) : M W B :=
  fun s =>
    match m s with
    | (inl e, s') => (inl e, s')
    | (inr a, s') => k a s'
    end.

Definition raise {W A} (e : exn) : M W A := fun s => (inl e, s).

(** [try: m except Exception as e: h e] *)
Definition try_except {W A} (m : M W A) (h : exn -> M W A) : M W A :=
  fun s =>
    match m s with
    | (inl e, s') => h e s'
    | (inr a, s') => (inr a, s')
    end.

Definition emit {W} (ef : effect) : M W unit :=
  fun s => (inr tt, mkState (world s) (trace s ++ [ef])).

(** A remote call: recorded in the trace, then answered by the service. *)
Definition remote {W A} (c : call) (f : W -> (exn + A) * W) : M W A :=
  fun s =>
    let '(r, w') := f (world s) in
    (r, mkState w' (trace s ++ [Call c])).

(** A step that sends nothing: it returns or raises, and leaves no effect. *)
Definition construct {W A} (r : exn + A) : M W A := fun s => (r, s).

(** [d[k]] on a dict whose key may be missing. *)
Definition getitem {W A} (key : string) (o : option A) : M W A :=
  match o with
  | Some a => ret a
  | None => raise (KeyError key)
  end.

Declare Scope py_scope.
Delimit Scope py_scope with py.
Notation "'let*' x ':=' m 'in' k" := (bind m (fun x => k))
  (at level 10, x name, m at level 99, k at level 200) : py_scope.
Notation "m ';;' k" := (bind m (fun _ => k))
  (at level 100, k at level 200, right associativity) : py_scope.
Local Open Scope py_scope.

Definition logger_info {W} (msg : string) : M W unit := emit (Log INFO msg).
Definition logger_error {W} (msg : string) : M W unit := emit (Log ERROR msg).

(** ** The handler

    [boto3.client(...)] builds a local object and sends nothing, so it
    leaves no effect here.  The SES client is built from the region of the
    event, before the [try] of line 37, and that can raise; the region then
    shows up as the first argument of the verification call.  The Route 53
    client is built from nothing the caller gives. *)

Section Handler.
Context {W : Type} {aws : AwsServices W}.

Definition create_or_update_verification
    (domain_name hosted_zone_id region : string) : M W Result :=
  construct (boto3_client_ses region) ;;
  try_except
    (let* response :=
       remote (SesVerifyDomainIdentity region domain_name)
              (ses_verify_domain_identity region domain_name) in
     let verification_token := VerificationToken response in
     logger_info ("Got verification token: " +:+ verification_token) ;;
     let record_name := "_amazonses." +:+ domain_name in
     let change_batch :=
       mkChangeBatch
         [ mkChange "UPSERT"
             (mkResourceRecordSet record_name "TXT" (Some 300%Z)
                [ mkResourceRecord
                    (String dquote verification_token +:+ String dquote EmptyString) ]) ] in
     let* route53_response :=
       remote (Route53ChangeResourceRecordSets hosted_zone_id change_batch)
              (route53_change_resource_record_sets hosted_zone_id change_batch) in
     let change_id := Id (ChangeInfo_ route53_response) in
     logger_info ("Created verification record with change ID: " +:+ change_id) ;;
     ret (mkResult ("ses-verification-" +:+ domain_name)
            (Some (mkResultData verification_token record_name change_id))))
    (fun e =>
       logger_error ("Failed to create verification record: " +:+ str_exn e) ;;
       raise e).

(** The test of line 96. *)
Definition is_verification_record (record_name : string)
    (record_set : ResourceRecordSet) : bool :=
  String.eqb (rstrip "." (Name record_set)) record_name
  && String.eqb (Type_ record_set) "TXT".

(** The [for ... break] loop of lines 95 to 110. *)
Fixpoint delete_scan (record_name hosted_zone_id : string)
    (record_sets : list ResourceRecordSet) : M W unit :=
  match record_sets with
  | [] => ret tt
  | record_set :: rest =>
      if is_verification_record record_name record_set then
        let change_batch := mkChangeBatch [ mkChange "DELETE" record_set ] in
        remote (Route53ChangeResourceRecordSets hosted_zone_id change_batch)
               (route53_change_resource_record_sets hosted_zone_id change_batch) ;;
        logger_info ("Deleted verification record: " +:+ record_name)
      else delete_scan record_name hosted_zone_id rest
  end.

Definition delete_verification
    (domain_name hosted_zone_id region : string) : M W Result :=
  try_except
    (let record_name := "_amazonses." +:+ domain_name in
     let* response :=
       remote (Route53ListResourceRecordSets hosted_zone_id record_name "TXT")
              (route53_list_resource_record_sets hosted_zone_id record_name "TXT") in
     delete_scan record_name hosted_zone_id (ResourceRecordSets response) ;;
     ret (mkResult ("ses-verification-" +:+ domain_name) None))
    (fun e =>
       logger_error ("Error during cleanup: " +:+ str_exn e) ;;
       ret (mkResult ("ses-verification-" +:+ domain_name) None)).

Definition handler (event : Event) : M W Result :=
  try_except
    (let* request_type := getitem "RequestType" (RequestType event) in
     let* props := getitem "ResourceProperties" (ResourceProperties event) in
     let* domain_name := getitem "DomainName" (props !! "DomainName") in
     let* hosted_zone_id := getitem "HostedZoneId" (props !! "HostedZoneId") in
     let* region := getitem "Region" (props !! "Region") in
     logger_info ("Processing " +:+ request_type +:+ " for domain "
                  +:+ domain_name +:+ " in region " +:+ region) ;;
     if String.eqb request_type "Create" || String.eqb request_type "Update" then
       create_or_update_verification domain_name hosted_zone_id region
     else if String.eqb request_type "Delete" then
       delete_verification domain_name hosted_zone_id region
     else
       raise (ValueError ("Unknown request type: " +:+ request_type)))
    (fun e =>
       logger_error ("Error processing request: " +:+ str_exn e) ;;
       raise e).

End Handler.

(** The condition of line 96 as a proposition: the name, with its trailing
    dots stripped, is the record name, and the type is TXT. *)
Definition verification_record (record_name : string)
    (record_set : ResourceRecordSet) : Prop :=
  rstrip "." (Name record_set) = record_name /\ Type_ record_set = "TXT".

(** The one result [delete_verification] can give for a domain. *)
Definition deleted (domain_name : string) : Result :=
  mkResult ("ses-verification-" +:+ domain_name) None.

(** All four required fields of an event are there. *)
Definition has_required_fields (event : Event) : bool :=
  match RequestType event, ResourceProperties event with
  | Some _, Some props =>
      match props !! "DomainName", props !! "HostedZoneId", props !! "Region" with
      | Some _, Some _, Some _ => true
      | _, _, _ => false
      end
  | _, _ => false
  end.

(** The change batch of lines 47 to 57, and the one of lines 97 to 102. *)
Definition upsert_batch (domain_name token : string) : ChangeBatch :=
  mkChangeBatch
    [ mkChange "UPSERT"
        (mkResourceRecordSet ("_amazonses." +:+ domain_name) "TXT" (Some 300%Z)
           [ mkResourceRecord (String dquote token +:+ String dquote EmptyString) ]) ].

Definition delete_batch (record_set : ResourceRecordSet) : ChangeBatch :=
  mkChangeBatch [ mkChange "DELETE" record_set ].

(** Running a computation from a world with an empty trace. *)
Definition run {W A} (m : M W A) (w : W) : (exn + A) * state W :=
  m (mkState w []).

Definition outcome {W A} (m : M W A) (w : W) : exn + A := fst (run m w).
Definition calls {W A} (m : M W A) (w : W) : list call :=
  calls_of (trace (snd (run m w))).
Definition final_world {W A} (m : M W A) (w : W) : W := world (snd (run m w)).

(** ** Reading a trace *)

Definition level_eqb (a b : level) : bool :=
  match a, b with
  | INFO, INFO | ERROR, ERROR => true
  | _, _ => false
  end.

(** The messages logged at one level, in order. *)
Fixpoint logged (l : level) (tr : list effect) : list string :=
  match tr with
  | [] => []
  | Log l' m :: tr' => if level_eqb l l' then m :: logged l tr' else logged l tr'
  | Call _ :: tr' => logged l tr'
  end.

(** A call stays within what the event names: the verification call is for
    the given region and domain, a listing is the one of lines 88 to 92 on
    the given zone, and a record change goes to the given zone. *)
Definition within (domain_name hosted_zone_id region : string) (c : call) : Prop :=
  match c with
  | SesVerifyDomainIdentity r d => r = region /\ d = domain_name
  | Route53ChangeResourceRecordSets z _ => z = hosted_zone_id
  | Route53ListResourceRecordSets z n t =>
      z = hosted_zone_id /\ n = "_amazonses." +:+ domain_name /\ t = "TXT"
  end.

(** The full trace of a run, log lines included. *)
Definition full_trace {W A} (m : M W A) (w : W) : list effect :=
  trace (snd (run m w)).

(** The operation [handler] runs once the five fields are read (lines 21
    to 26). *)
Definition dispatched {W : Type} {aws : AwsServices W}
    (rt d z r : string) : M W Result :=
  if String.eqb rt "Create" || String.eqb rt "Update" then
    create_or_update_verification d z r
  else if String.eqb rt "Delete" then delete_verification d z r
  else raise (ValueError ("Unknown request type: " +:+ rt)).

(** The run of a handler that rejects its event before any call: the
    exception, the world untouched and the one line of line 29. *)
Definition rejected {W : Type} (w : W) (e : exn) : (exn + Result) * state W :=
  (inl e, mkState w [ Log ERROR ("Error processing request: " +:+ str_exn e) ]).

(** ** A small concrete world

    A single hosted zone held as a list of record sets, and three switches
    that make a service raise.  It is used to run the handler on concrete
    inputs. *)

Module Sim.

Record sim : Type := mkSim {
  zone : list ResourceRecordSet;
  ses_up : bool;
  list_up : bool;
  change_up : bool
}.

Definition same_key (a b : ResourceRecordSet) : bool :=
  String.eqb (Name a) (Name b) && String.eqb (Type_ a) (Type_ b).

Definition apply_change (recs : list ResourceRecordSet) (ch : Change)
    : list ResourceRecordSet :=
  let rs := ChangeResourceRecordSet ch in
  let others := filter (fun x => same_key x rs = false) recs in
  if String.eqb (Action ch) "DELETE" then others else others ++ [rs].

(** A region name is taken as well formed when it holds no space. *)
Definition client_ses (region : string) : exn + unit :=
  if contains_char " " region then
    inl (ServiceError ("Provided region_name '" +:+ region
                       +:+ "' doesn't match a supported format."))
  else inr tt.

Definition verify (region domain : string) (w : sim)
    : (exn + VerifyDomainIdentityResponse) * sim :=
  if ses_up w then (inr (mkVerifyResponse ("tok-" +:+ domain)), w)
  else (inl (ServiceError "SES unavailable"), w).

Definition change (hz : string) (batch : ChangeBatch) (w : sim)
    : (exn + ChangeResourceRecordSetsResponse) * sim :=
  if change_up w then
    (inr (mkChangeResponse (mkChangeInfo ("/change/" +:+ hz))),
     mkSim (fold_left apply_change (Changes batch) (zone w))
           (ses_up w) (list_up w) (change_up w))
  else (inl (ServiceError "InvalidChangeBatch"), w).

Definition listing (hz start_name start_type : string) (w : sim)
    : (exn + ListResourceRecordSetsResponse) * sim :=
  if list_up w then (inr (mkListResponse (zone w)), w)
  else (inl (ServiceError "Throttling"), w).

#[export] Instance sim_services : AwsServices sim := {
  boto3_client_ses := client_ses;
  ses_verify_domain_identity := verify;
  route53_change_resource_record_sets := change;
  route53_list_resource_record_sets := listing
}.

Definition txt (name value : string) : ResourceRecordSet :=
  mkResourceRecordSet name "TXT" (Some 1800%Z) [ mkResourceRecord value ].

(** A zone that holds the verification record of [example.com] between
    two unrelated records. *)
Definition zone0 : list ResourceRecordSet :=
  [ txt "_amazonses.example.com.au." "other";
    mkResourceRecordSet "_amazonses.example.com." "CNAME" (Some 60%Z) [];
    txt "_amazonses.example.com." "old-token";
    txt "_amazonses.example.com" "second" ].

Definition up (recs : list ResourceRecordSet) : sim := mkSim recs true true true.
Definition ses_down : sim := mkSim zone0 false true true.
Definition list_down : sim := mkSim zone0 true false true.
Definition change_down : sim := mkSim zone0 true true false.

Definition props0 : gmap string string :=
  <["DomainName" := "example.com"]>
    (<["HostedZoneId" := "Z123"]> (<["Region" := "us-east-1"]> ∅)).

Definition event0 (request_type : string) : Event :=
  mkEvent (Some request_type) (Some props0).

(** The same event with another region. *)
Definition event_in (region request_type : string) : Event :=
  mkEvent (Some request_type) (Some (<["Region" := region]> props0)).

Definition verification_rs : ResourceRecordSet :=
  txt "_amazonses.example.com." "old-token".

Definition cname_rs : ResourceRecordSet :=
  mkResourceRecordSet "_amazonses.example.com." "CNAME" (Some 60%Z) [].

Definition created (change_id : string) : Result :=
  mkResult "ses-verification-example.com"
    (Some (mkResultData "tok-example.com" "_amazonses.example.com" change_id)).

End Sim.

(** * Properties *)

(** ** [rstrip] does what [str.rstrip] does *)

Lemma rstrip_replicate c n : rstrip c (replicate_char n c) = EmptyString.
Proof.
  induction n as [|n IH]; simpl; [done|].
  by rewrite IH, Ascii.eqb_refl.
Qed.

(** The input is the output followed by a run of the stripped character. *)
Lemma rstrip_decompose c s :
  exists n, s = rstrip c s +:+ replicate_char n c.
Proof.
  induction s as [|a s [n IH]]; simpl.
  - by exists 0.
  - destruct (rstrip c s) as [|b r] eqn:E.
    + destruct (Ascii.eqb_spec a c) as [->|_].
      * exists (S n). simpl. by rewrite IH at 1.
      * exists n. simpl. by rewrite IH at 1.
    + exists n. simpl. by rewrite IH at 1.
Qed.

(** The output does not end with the stripped character. *)
Lemma rstrip_last c s : last_char (rstrip c s) <> Some c.
Proof.
  induction s as [|a s IH]; simpl; [done|].
  destruct (rstrip c s) as [|b r] eqn:E.
  - destruct (Ascii.eqb_spec a c) as [->|Hne]; simpl; congruence.
  - simpl in *. done.
Qed.

(** Nothing is dropped from a string that does not end with the character. *)
Lemma rstrip_app_replicate c t n :
  last_char t <> Some c -> rstrip c (t +:+ replicate_char n c) = t.
Proof.
  induction t as [|a t IH]; simpl; intros Hl.
  - apply rstrip_replicate.
  - destruct t as [|b t'].
    + rewrite IH by done.
      destruct (Ascii.eqb_spec a c) as [->|_]; [done|done].
    + rewrite IH by done. done.
Qed.

(** ** The trace only grows, and remote calls are the only way to touch
    the world *)

Lemma calls_of_app tr1 tr2 :
  calls_of (tr1 ++ tr2) = (calls_of tr1 ++ calls_of tr2)%list.
Proof.
  induction tr1 as [|[c|l m] tr1 IH]; simpl; [done| |done].
  by rewrite IH.
Qed.

Section Equations.
Context {W : Type} {aws : AwsServices W}.

(** *** The equation of [create_or_update_verification] *)

Lemma create_or_update_eq d z r (s : state W) :
  create_or_update_verification d z r s =
  match boto3_client_ses r with
  | inl e => (inl e, s)
  | inr _ =>
  match ses_verify_domain_identity r d (world s) with
  | (inl e, w1) =>
      (inl e,
       mkState w1
         (trace s ++
          [ Call (SesVerifyDomainIdentity r d);
            Log ERROR ("Failed to create verification record: " +:+ str_exn e) ]))
  | (inr resp, w1) =>
      let t := VerificationToken resp in
      match route53_change_resource_record_sets z (upsert_batch d t) w1 with
      | (inl e, w2) =>
          (inl e,
           mkState w2
             (trace s ++
              [ Call (SesVerifyDomainIdentity r d);
                Log INFO ("Got verification token: " +:+ t);
                Call (Route53ChangeResourceRecordSets z (upsert_batch d t));
                Log ERROR ("Failed to create verification record: " +:+ str_exn e) ]))
      | (inr cresp, w2) =>
          (inr (mkResult ("ses-verification-" +:+ d)
                  (Some (mkResultData t ("_amazonses." +:+ d)
                           (Id (ChangeInfo_ cresp))))),
           mkState w2
             (trace s ++
              [ Call (SesVerifyDomainIdentity r d);
                Log INFO ("Got verification token: " +:+ t);
                Call (Route53ChangeResourceRecordSets z (upsert_batch d t));
                Log INFO ("Created verification record with change ID: "
                          +:+ Id (ChangeInfo_ cresp)) ]))
      end
  end
  end.
Proof.
  unfold create_or_update_verification, bind at 1, construct.
  destruct (boto3_client_ses r) as [e|[]]; [done|].
  unfold try_except, bind, remote, logger_info,
    logger_error, emit, raise, ret, upsert_batch; simpl.
  destruct (ses_verify_domain_identity r d (world s)) as [[e|resp] w1]; simpl.
  - by rewrite <- app_assoc.
  - destruct (route53_change_resource_record_sets z _ w1) as [[e|cr] w2]; simpl;
      by rewrite <- !app_assoc.
Qed.

(** *** The equation of the scan *)

Lemma delete_scan_eq name z (l : list ResourceRecordSet) (s : state W) :
  delete_scan name z l s =
  match find (is_verification_record name) l with
  | None => (inr tt, s)
  | Some rs =>
      match route53_change_resource_record_sets z (delete_batch rs) (world s) with
      | (inl e, w1) =>
          (inl e,
           mkState w1
             (trace s ++ [ Call (Route53ChangeResourceRecordSets z (delete_batch rs)) ]))
      | (inr _, w1) =>
          (inr tt,
           mkState w1
             (trace s ++
              [ Call (Route53ChangeResourceRecordSets z (delete_batch rs));
                Log INFO ("Deleted verification record: " +:+ name) ]))
      end
  end.
Proof.
  induction l as [|rs l IH]; simpl; [done|].
  destruct (is_verification_record name rs); [|apply IH].
  unfold bind, remote, logger_info, emit, delete_batch; simpl.
  destruct (route53_change_resource_record_sets z _ (world s)) as [[e|cr] w1]; simpl;
    [done|]. by rewrite <- app_assoc.
Qed.

(** *** The equation of [delete_verification] *)

Lemma delete_verification_eq d z r (s : state W) :
  delete_verification d z r s =
  let name := "_amazonses." +:+ d in
  let list_call := Call (Route53ListResourceRecordSets z name "TXT") in
  match route53_list_resource_record_sets z name "TXT" (world s) with
  | (inl e, w1) =>
      (inr (deleted d),
       mkState w1
         (trace s ++
          [ list_call; Log ERROR ("Error during cleanup: " +:+ str_exn e) ]))
  | (inr resp, w1) =>
      match find (is_verification_record name) (ResourceRecordSets resp) with
      | None => (inr (deleted d), mkState w1 (trace s ++ [ list_call ]))
      | Some rs =>
          let change_call :=
            Call (Route53ChangeResourceRecordSets z (delete_batch rs)) in
          match route53_change_resource_record_sets z (delete_batch rs) w1 with
          | (inl e, w2) =>
              (inr (deleted d),
               mkState w2
                 (trace s ++
                  [ list_call; change_call;
                    Log ERROR ("Error during cleanup: " +:+ str_exn e) ]))
          | (inr _, w2) =>
              (inr (deleted d),
               mkState w2
                 (trace s ++
                  [ list_call; change_call;
                    Log INFO ("Deleted verification record: " +:+ name) ]))
          end
      end
  end.
Proof.
  unfold delete_verification, try_except, bind at 1, remote at 1; simpl.
  destruct (route53_list_resource_record_sets z _ "TXT" (world s))
    as [[e|resp] w1]; simpl.
  - unfold bind, logger_error, emit, ret; simpl. by rewrite <- app_assoc.
  - unfold bind. rewrite delete_scan_eq. simpl.
    destruct (find _ (ResourceRecordSets resp)) as [rs|]; simpl; [|done].
    destruct (route53_change_resource_record_sets z _ w1) as [[e|cr] w2]; simpl.
    + unfold logger_error, emit, ret; simpl. by rewrite <- !app_assoc.
    + unfold ret. by rewrite <- !app_assoc.
Qed.

(** *** The equation of [handler] when no field is missing *)

Lemma handler_eq rt (props : gmap string string) d z r (s : state W) :
  props !! "DomainName" = Some d ->
  props !! "HostedZoneId" = Some z ->
  props !! "Region" = Some r ->
  handler (mkEvent (Some rt) (Some props)) s =
  let s0 :=
    mkState (world s)
      (trace s ++
       [ Log INFO ("Processing " +:+ rt +:+ " for domain " +:+ d
                   +:+ " in region " +:+ r) ]) in
  let body : M W Result :=
    if String.eqb rt "Create" || String.eqb rt "Update" then
      create_or_update_verification d z r
    else if String.eqb rt "Delete" then delete_verification d z r
    else raise (ValueError ("Unknown request type: " +:+ rt)) in
  match body s0 with
  | (inl e, s') =>
      (inl e,
       mkState (world s')
         (trace s' ++ [ Log ERROR ("Error processing request: " +:+ str_exn e) ]))
  | (inr a, s') => (inr a, s')
  end.
Proof.
  intros Hd Hz Hr.
  unfold handler, try_except, bind, getitem; simpl.
  rewrite Hd, Hz, Hr; simpl.
  match goal with |- context [?b ?st] =>
    match type of (b st) with (_ * state W)%type =>
      destruct (b st) as [[e|a] s'] eqn:E end end; simpl; done.
Qed.

End Equations.

(** ** Bridging lemmas *)

Lemma is_verification_record_iff name rs :
  is_verification_record name rs = true <-> verification_record name rs.
Proof.
  unfold is_verification_record, verification_record.
  rewrite andb_true_iff, !String.eqb_eq. done.
Qed.

Lemma is_verification_record_false name rs :
  is_verification_record name rs = false <-> ~ verification_record name rs.
Proof.
  rewrite <- is_verification_record_iff.
  destruct (is_verification_record name rs); split; congruence.
Qed.

(** [find] returns the first element that passes the test. *)
Lemma find_first {A} (f : A -> bool) pre x post :
  Forall (fun y => f y = false) pre -> f x = true ->
  find f (pre ++ x :: post) = Some x.
Proof.
  induction 1 as [|y pre Hy _ IH]; simpl; intros Hx.
  - by rewrite Hx.
  - rewrite Hy. by apply IH.
Qed.

Lemma find_nothing {A} (f : A -> bool) l :
  Forall (fun y => f y = false) l -> find f l = None.
Proof.
  induction 1 as [|y l Hy _ IH]; simpl; [done|]. by rewrite Hy.
Qed.

Lemma has_required_fields_true ev :
  has_required_fields ev = true ->
  exists rt props d z r,
    ev = mkEvent (Some rt) (Some props) /\
    props !! "DomainName" = Some d /\
    props !! "HostedZoneId" = Some z /\
    props !! "Region" = Some r.
Proof.
  destruct ev as [[rt|] [props|]]; unfold has_required_fields; simpl; try done.
  destruct (props !! "DomainName") as [d|] eqn:Hd; [|done].
  destruct (props !! "HostedZoneId") as [z|] eqn:Hz; [|done].
  destruct (props !! "Region") as [r|] eqn:Hr; [|done].
  intros _. by exists rt, props, d, z, r.
Qed.

Ltac observe :=
  unfold outcome, calls, final_world, run.

(** The outcome of [delete_verification], shared by the claims below. *)
Lemma delete_outcome {W : Type} {aws : AwsServices W}
    d z r (w : W) :
  outcome (delete_verification d z r) w = inr (deleted d).
Proof.
  observe. rewrite delete_verification_eq. simpl.
  destruct (route53_list_resource_record_sets z _ "TXT" w) as [[e|resp] w1];
    [done|].
  destruct (find _ (ResourceRecordSets resp)) as [rs|]; [|done].
  by destruct (route53_change_resource_record_sets z _ w1) as [[e|cr] w2].
Qed.

(** ** The claims *)

Section Claims.
Context {W : Type} {aws : AwsServices W}.

(** C1.  Whatever the listing call and the record-change call answer, on
    every domain, zone and region and from every state of the world,
    [delete_verification] raises nothing: its outcome is the result whose
    PhysicalResourceId is "ses-verification-" followed by the domain and
    whose Data field is absent. *)
Theorem delete_verification_never_raises d z r (w : W) :
  outcome (delete_verification d z r) w
  = inr (mkResult ("ses-verification-" +:+ d) None).
Proof. apply delete_outcome. Qed.

(** C2.  Whenever [create_or_update_verification] returns a result for a
    domain, its PhysicalResourceId is "ses-verification-" followed by the
    domain; a second call for the same domain, from any world and with any
    zone and region, returns the same identifier. *)
Theorem physical_id_depends_on_domain_only
    d z1 r1 (w1 : W) z2 r2 (w2 : W) res1 res2 :
  outcome (create_or_update_verification d z1 r1) w1 = inr res1 ->
  outcome (create_or_update_verification d z2 r2) w2 = inr res2 ->
  PhysicalResourceId res1 = "ses-verification-" +:+ d /\
  PhysicalResourceId res2 = PhysicalResourceId res1.
Proof.
  assert (Hid : forall z r (w : W) res,
    outcome (create_or_update_verification d z r) w = inr res ->
    PhysicalResourceId res = "ses-verification-" +:+ d).
  { intros z r w res. observe. rewrite create_or_update_eq. simpl.
    destruct (boto3_client_ses r) as [e|[]]; [done|].
    destruct (ses_verify_domain_identity r d w) as [[e|resp] w']; [done|].
    destruct (route53_change_resource_record_sets z _ w') as [[e|cr] w''];
      [done|].
    simpl. by intros [= <-]. }
  intros H1 H2. apply Hid in H1, H2. by rewrite H1, H2.
Qed.

(** C3.  When the SES client is built and the verification service answers
    with a token, the calls of
    [create_or_update_verification] are the verification call followed by
    one record change in the given zone: an UPSERT of the record set named
    "_amazonses." followed by the domain, of type TXT, with TTL 300 and the
    single value made of a double quote, the token and a double quote.
    When the DNS service accepts the change, the Data of the result holds
    the token, that record name and the change id the DNS service gave. *)
Theorem create_or_update_upserts_quoted_token d z r (w : W) resp w1 :
  boto3_client_ses r = inr tt ->
  ses_verify_domain_identity r d w = (inr resp, w1) ->
  let t := VerificationToken resp in
  let batch :=
    mkChangeBatch
      [ mkChange "UPSERT"
          (mkResourceRecordSet ("_amazonses." +:+ d) "TXT" (Some 300%Z)
             [ mkResourceRecord (String dquote (t +:+ String dquote EmptyString)) ]) ] in
  calls (create_or_update_verification d z r) w
  = [ SesVerifyDomainIdentity r d; Route53ChangeResourceRecordSets z batch ] /\
  forall cresp w2,
    route53_change_resource_record_sets z batch w1 = (inr cresp, w2) ->
    outcome (create_or_update_verification d z r) w
    = inr (mkResult ("ses-verification-" +:+ d)
             (Some (mkResultData t ("_amazonses." +:+ d) (Id (ChangeInfo_ cresp))))).
Proof.
  intros Hb Hv t batch. observe. rewrite create_or_update_eq, Hb. simpl.
  rewrite Hv. fold t. change (upsert_batch d t) with batch.
  split.
  - by destruct (route53_change_resource_record_sets z batch w1) as [[e|cr] w2].
  - intros cresp w2 Hc. by rewrite Hc.
Qed.

(** C6.  The SES client being built: when the verification call raises,
    [create_or_update_verification]
    raises the same exception having made that one call and no other.
    When the verification call succeeds and the record change raises, it
    raises the exception of the record change having made exactly the two
    calls, once each: nothing is retried and nothing is undone. *)
Theorem create_or_update_propagates_failure d z r (w : W) :
  boto3_client_ses r = inr tt ->
  (forall e w1,
     ses_verify_domain_identity r d w = (inl e, w1) ->
     outcome (create_or_update_verification d z r) w = inl e /\
     calls (create_or_update_verification d z r) w
     = [ SesVerifyDomainIdentity r d ] /\
     final_world (create_or_update_verification d z r) w = w1) /\
  (forall resp w1 e w2,
     ses_verify_domain_identity r d w = (inr resp, w1) ->
     route53_change_resource_record_sets z
       (upsert_batch d (VerificationToken resp)) w1 = (inl e, w2) ->
     outcome (create_or_update_verification d z r) w = inl e /\
     calls (create_or_update_verification d z r) w
     = [ SesVerifyDomainIdentity r d;
         Route53ChangeResourceRecordSets z
           (upsert_batch d (VerificationToken resp)) ] /\
     final_world (create_or_update_verification d z r) w = w2).
Proof.
  intros Hb. split.
  - intros e w1 Hv. observe. rewrite create_or_update_eq, Hb. simpl.
    by rewrite Hv.
  - intros resp w1 e w2 Hv Hc. observe. rewrite create_or_update_eq, Hb. simpl.
    by rewrite Hv, Hc.
Qed.

(** C10.  [delete_verification] does not look at its region argument: two
    runs that differ only in the region give the same result, make the
    same calls, write the same log lines and leave the same world. *)
Theorem delete_verification_ignores_region d z r1 r2 (w : W) :
  outcome (delete_verification d z r1) w = outcome (delete_verification d z r2) w /\
  calls (delete_verification d z r1) w = calls (delete_verification d z r2) w /\
  run (delete_verification d z r1) w = run (delete_verification d z r2) w.
Proof. done. Qed.

(** C4.  With the listing as the DNS service returned it, every record
    change [delete_verification] submits is a DELETE of a record set of
    that listing whose name, once its trailing dots are stripped, is
    exactly "_amazonses." followed by the domain and whose type is TXT; a
    record set with another name or another type is in no submitted
    change. *)
Theorem delete_selects_only_verification_record d z r (w : W) resp w1 :
  route53_list_resource_record_sets z ("_amazonses." +:+ d) "TXT" w
  = (inr resp, w1) ->
  (forall ch,
     In ch (submitted_changes (calls (delete_verification d z r) w)) ->
     Action ch = "DELETE" /\
     In (ChangeResourceRecordSet ch) (ResourceRecordSets resp) /\
     rstrip "." (Name (ChangeResourceRecordSet ch)) = "_amazonses." +:+ d /\
     Type_ (ChangeResourceRecordSet ch) = "TXT") /\
  (forall rs,
     rstrip "." (Name rs) <> "_amazonses." +:+ d \/ Type_ rs <> "TXT" ->
     forall ch,
       In ch (submitted_changes (calls (delete_verification d z r) w)) ->
       ChangeResourceRecordSet ch <> rs).
Proof.
  intros Hl.
  assert (Hsel : forall ch,
    In ch (submitted_changes (calls (delete_verification d z r) w)) ->
    Action ch = "DELETE" /\
    In (ChangeResourceRecordSet ch) (ResourceRecordSets resp) /\
    verification_record ("_amazonses." +:+ d) (ChangeResourceRecordSet ch)).
  { intros ch. observe. rewrite delete_verification_eq. simpl. rewrite Hl.
    destruct (find _ (ResourceRecordSets resp)) as [rs|] eqn:Hf; [|simpl; tauto].
    apply find_some in Hf as [Hin Hm].
    apply is_verification_record_iff in Hm.
    destruct (route53_change_resource_record_sets z _ w1) as [[e|cr] w2]; simpl;
      intros [<-|[]]; done. }
  split.
  - intros ch Hch. destruct (Hsel ch Hch) as (Ha & Hin & Hn & Ht). done.
  - intros rs Hrs ch Hch <-. destruct (Hsel _ Hch) as (_ & _ & Hn & Ht).
    destruct Hrs; done.
Qed.

(** C5.  [delete_verification] submits at most one record change, whatever
    the services answer.  With the listing as the DNS service returned it:
    the result is the canonical one; when a record set matches, the calls
    are the listing call followed by one DELETE of the first matching
    record set, passed as the listing gave it, and none for the record sets
    after it; when no record set matches, the listing call is the only
    call. *)
Theorem delete_submits_first_match_only d z r (w : W) :
  length (submitted_changes (calls (delete_verification d z r) w)) <= 1 /\
  forall resp w1,
    route53_list_resource_record_sets z ("_amazonses." +:+ d) "TXT" w
    = (inr resp, w1) ->
    outcome (delete_verification d z r) w
    = inr (mkResult ("ses-verification-" +:+ d) None) /\
    (forall pre rs post,
       ResourceRecordSets resp = (pre ++ rs :: post)%list ->
       Forall (fun x => ~ verification_record ("_amazonses." +:+ d) x) pre ->
       verification_record ("_amazonses." +:+ d) rs ->
       calls (delete_verification d z r) w
       = [ Route53ListResourceRecordSets z ("_amazonses." +:+ d) "TXT";
           Route53ChangeResourceRecordSets z
             (mkChangeBatch [ mkChange "DELETE" rs ]) ]) /\
    (Forall (fun x => ~ verification_record ("_amazonses." +:+ d) x)
       (ResourceRecordSets resp) ->
     calls (delete_verification d z r) w
     = [ Route53ListResourceRecordSets z ("_amazonses." +:+ d) "TXT" ]).
Proof.
  split.
  - observe. rewrite delete_verification_eq. simpl.
    destruct (route53_list_resource_record_sets z _ "TXT" w) as [[e|resp] w1];
      simpl; [lia|].
    destruct (find _ (ResourceRecordSets resp)) as [rs|]; simpl; [|lia].
    destruct (route53_change_resource_record_sets z _ w1) as [[e|cr] w2];
      simpl; lia.
  - intros resp w1 Hl. split; [apply delete_outcome|].
    split.
    + intros pre rs post HL Hpre Hrs.
      observe. rewrite delete_verification_eq. simpl. rewrite Hl, HL.
      rewrite find_first.
      * by destruct (route53_change_resource_record_sets z _ w1) as [[e|cr] w2].
      * eapply Forall_impl; [exact Hpre|].
        intros x Hx. by apply is_verification_record_false.
      * by apply is_verification_record_iff.
    + intros Hnone. observe. rewrite delete_verification_eq. simpl. rewrite Hl.
      rewrite find_nothing; [done|].
      eapply Forall_impl; [exact Hnone|].
      intros x Hx. by apply is_verification_record_false.
Qed.

(** C7.  On an event that has all its required fields and whose request
    type is not Create, Update or Delete, [handler] raises the ValueError
    for an unknown request type, makes no call to the verification service
    or to the DNS service, and leaves the world as it was. *)
Theorem handler_rejects_unknown_request_type ev rt (w : W) :
  has_required_fields ev = true ->
  RequestType ev = Some rt ->
  rt <> "Create" -> rt <> "Update" -> rt <> "Delete" ->
  outcome (handler ev) w = inl (ValueError ("Unknown request type: " +:+ rt)) /\
  calls (handler ev) w = [] /\
  final_world (handler ev) w = w.
Proof.
  intros Hreq Hrt Hc Hu Hd.
  apply has_required_fields_true in Hreq
    as (rt' & props & d & z & r & -> & Hdn & Hz & Hr).
  simpl in Hrt. injection Hrt as ->.
  apply String.eqb_neq in Hc, Hu, Hd.
  observe. rewrite (handler_eq rt props d z r) by done. simpl.
  rewrite Hc, Hu, Hd. done.
Qed.

(** C8.  On an event that lacks the request type, the resource properties,
    the domain name, the zone id or the region, [handler] raises a
    KeyError for one of these keys, whatever the request type, makes no
    call to either service and leaves the world as it was. *)
Theorem handler_rejects_missing_field ev (w : W) :
  has_required_fields ev = false ->
  (exists key,
     In key [ "RequestType"; "ResourceProperties"; "DomainName";
              "HostedZoneId"; "Region" ] /\
     outcome (handler ev) w = inl (KeyError key)) /\
  calls (handler ev) w = [] /\
  final_world (handler ev) w = w.
Proof.
  destruct ev as [[rt|] [props|]]; unfold has_required_fields; simpl;
    observe; unfold handler, try_except, bind, getitem; simpl.
  - destruct (props !! "DomainName") as [d|]; simpl.
    + destruct (props !! "HostedZoneId") as [z|]; simpl.
      * destruct (props !! "Region") as [r|]; simpl; [done|].
        intros _. split; [|done]. exists "Region". simpl. tauto.
      * intros _. split; [|done]. exists "HostedZoneId". simpl. tauto.
    + intros _. split; [|done]. exists "DomainName". simpl. tauto.
  - intros _. split; [|done]. exists "ResourceProperties". simpl. tauto.
  - intros _. split; [|done]. exists "RequestType". simpl. tauto.
  - intros _. split; [|done]. exists "RequestType". simpl. tauto.
Qed.

(** Two events that differ only in that one says Create and the other
    Update give the same run up to the first log line, fields missing or
    not. *)
Lemma handler_create_update_same_run
    (props : option (gmap string string)) (w : W) :
  outcome (handler (mkEvent (Some "Create") props)) w
  = outcome (handler (mkEvent (Some "Update") props)) w /\
  calls (handler (mkEvent (Some "Create") props)) w
  = calls (handler (mkEvent (Some "Update") props)) w /\
  final_world (handler (mkEvent (Some "Create") props)) w
  = final_world (handler (mkEvent (Some "Update") props)) w.
Proof.
  destruct props as [props|]; [|done].
  destruct (props !! "DomainName") as [d|] eqn:Hd;
    [|observe; unfold handler, try_except, bind, getitem; simpl;
      by rewrite Hd].
  destruct (props !! "HostedZoneId") as [z|] eqn:Hz;
    [|observe; unfold handler, try_except, bind, getitem; simpl;
      by rewrite Hd, Hz].
  destruct (props !! "Region") as [r|] eqn:Hr;
    [|observe; unfold handler, try_except, bind, getitem; simpl;
      by rewrite Hd, Hz, Hr].
  observe.
  rewrite (handler_eq "Create" props d z r), (handler_eq "Update" props d z r)
    by done.
  simpl. rewrite !create_or_update_eq. simpl.
  destruct (boto3_client_ses r) as [e|[]]; [done|].
  destruct (ses_verify_domain_identity r d w) as [[e|resp] w1]; simpl.
  - done.
  - destruct (route53_change_resource_record_sets z _ w1) as [[e|cr] w2]; simpl;
      done.
Qed.

End Claims.

(** ** The claims on concrete runs *)

Import Sim.

(** Teardown goes through when the listing raises and when the record
    change raises. *)
Example delete_when_listing_raises :
  run (delete_verification "example.com" "Z123" "us-east-1") list_down
  = (inr (mkResult "ses-verification-example.com" None),
     mkState list_down
       [ Call (Route53ListResourceRecordSets "Z123" "_amazonses.example.com" "TXT");
         Log ERROR "Error during cleanup: Throttling" ]).
Proof. reflexivity. Qed.

Example delete_when_change_raises :
  run (delete_verification "example.com" "Z123" "us-east-1") change_down
  = (inr (mkResult "ses-verification-example.com" None),
     mkState change_down
       [ Call (Route53ListResourceRecordSets "Z123" "_amazonses.example.com" "TXT");
         Call (Route53ChangeResourceRecordSets "Z123"
                 (mkChangeBatch [ mkChange "DELETE" verification_rs ]));
         Log ERROR "Error during cleanup: InvalidChangeBatch" ]).
Proof. reflexivity. Qed.

(** A name with several trailing dots loses them all; a name that differs
    before the dots does not match. *)
Example rstrip_examples :
  rstrip "." "_amazonses.example.com.." = "_amazonses.example.com" /\
  rstrip "." "_amazonses.example.com.au." = "_amazonses.example.com.au" /\
  rstrip "." "..." = EmptyString.
Proof. repeat split. Qed.

Lemma physical_id_depends_on_domain_only_witness :
  PhysicalResourceId (created "/change/Z123") = "ses-verification-example.com" /\
  PhysicalResourceId (created "/change/Z999")
  = PhysicalResourceId (created "/change/Z123").
Proof.
  apply (physical_id_depends_on_domain_only (aws:=sim_services)
           "example.com" "Z123" "us-east-1" (up zone0)
           "Z999" "eu-west-1" (up [])); reflexivity.
Defined.

Lemma create_or_update_upserts_quoted_token_witness :
  calls (create_or_update_verification "example.com" "Z123" "us-east-1") (up zone0)
  = [ SesVerifyDomainIdentity "us-east-1" "example.com";
      Route53ChangeResourceRecordSets "Z123"
        (mkChangeBatch
           [ mkChange "UPSERT"
               (mkResourceRecordSet "_amazonses.example.com" "TXT" (Some 300%Z)
                  [ mkResourceRecord
                      (String dquote ("tok-example.com" +:+ String dquote EmptyString)) ]) ]) ] /\
  outcome (create_or_update_verification "example.com" "Z123" "us-east-1") (up zone0)
  = inr (created "/change/Z123").
Proof.
  destruct (create_or_update_upserts_quoted_token (aws:=sim_services)
              "example.com" "Z123" "us-east-1" (up zone0)
              (mkVerifyResponse "tok-example.com") (up zone0) eq_refl eq_refl)
    as [Hcalls Hres].
  split; [exact Hcalls|].
  exact (Hres (mkChangeResponse (mkChangeInfo "/change/Z123")) _ eq_refl).
Defined.

Lemma delete_selects_only_verification_record_witness :
  (Action (mkChange "DELETE" verification_rs) = "DELETE" /\
   In verification_rs zone0 /\
   rstrip "." (Name verification_rs) = "_amazonses.example.com" /\
   Type_ verification_rs = "TXT") /\
  verification_rs <> cname_rs.
Proof.
  destruct (delete_selects_only_verification_record (aws:=sim_services)
              "example.com" "Z123" "us-east-1" (up zone0)
              (mkListResponse zone0) (up zone0) eq_refl)
    as [Hsel Hign].
  split.
  - apply (Hsel (mkChange "DELETE" verification_rs)). vm_compute. tauto.
  - refine (Hign cname_rs _ (mkChange "DELETE" verification_rs) _).
    + right. vm_compute. intros Heq. discriminate Heq.
    + vm_compute. tauto.
Defined.

Lemma delete_submits_first_match_only_witness :
  (calls (delete_verification "example.com" "Z123" "us-east-1") (up zone0)
   = [ Route53ListResourceRecordSets "Z123" "_amazonses.example.com" "TXT";
       Route53ChangeResourceRecordSets "Z123"
         (mkChangeBatch [ mkChange "DELETE" verification_rs ]) ]) /\
  (calls (delete_verification "example.com" "Z123" "us-east-1") (up [cname_rs])
   = [ Route53ListResourceRecordSets "Z123" "_amazonses.example.com" "TXT" ]) /\
  outcome (delete_verification "example.com" "Z123" "us-east-1") (up [cname_rs])
  = inr (mkResult "ses-verification-example.com" None).
Proof.
  destruct (delete_submits_first_match_only (aws:=sim_services)
              "example.com" "Z123" "us-east-1" (up zone0)) as [_ Hfound].
  destruct (Hfound (mkListResponse zone0) (up zone0) eq_refl) as (_ & Hfirst & _).
  destruct (delete_submits_first_match_only (aws:=sim_services)
              "example.com" "Z123" "us-east-1" (up [cname_rs])) as [_ Hnone].
  destruct (Hnone (mkListResponse [cname_rs]) (up [cname_rs]) eq_refl)
    as (Hres & _ & Hmiss).
  split; [|split].
  - apply (Hfirst [ txt "_amazonses.example.com.au." "other"; cname_rs ]
             verification_rs [ txt "_amazonses.example.com" "second" ]).
    + reflexivity.
    + repeat constructor; intros [Hn Ht]; vm_compute in Hn, Ht; discriminate.
    + split; reflexivity.
  - apply Hmiss.
    repeat constructor; intros [Hn Ht]; vm_compute in Hn, Ht; discriminate.
  - exact Hres.
Defined.

Lemma create_or_update_propagates_failure_witness :
  (outcome (create_or_update_verification "example.com" "Z123" "us-east-1") ses_down
   = inl (ServiceError "SES unavailable") /\
   calls (create_or_update_verification "example.com" "Z123" "us-east-1") ses_down
   = [ SesVerifyDomainIdentity "us-east-1" "example.com" ]) /\
  (outcome (create_or_update_verification "example.com" "Z123" "us-east-1") change_down
   = inl (ServiceError "InvalidChangeBatch") /\
   calls (create_or_update_verification "example.com" "Z123" "us-east-1") change_down
   = [ SesVerifyDomainIdentity "us-east-1" "example.com";
       Route53ChangeResourceRecordSets "Z123"
         (upsert_batch "example.com" "tok-example.com") ]).
Proof.
  destruct (create_or_update_propagates_failure (aws:=sim_services)
              "example.com" "Z123" "us-east-1" ses_down eq_refl) as [Hses _].
  destruct (create_or_update_propagates_failure (aws:=sim_services)
              "example.com" "Z123" "us-east-1" change_down eq_refl) as [_ Hdns].
  split.
  - destruct (Hses _ _ eq_refl) as (Ho & Hc & _). by split.
  - destruct (Hdns (mkVerifyResponse "tok-example.com") _ _ _ eq_refl eq_refl)
      as (Ho & Hc & _).
    by split.
Defined.

Lemma handler_rejects_unknown_request_type_witness :
  outcome (handler (event0 "Replace")) (up zone0)
  = inl (ValueError "Unknown request type: Replace") /\
  calls (handler (event0 "Replace")) (up zone0) = [] /\
  final_world (handler (event0 "Replace")) (up zone0) = up zone0.
Proof.
  apply (handler_rejects_unknown_request_type (aws:=sim_services) (event0 "Replace") "Replace");
    [vm_compute; reflexivity | reflexivity | discriminate.. ].
Defined.

Lemma handler_rejects_missing_field_witness :
  (exists key,
     In key [ "RequestType"; "ResourceProperties"; "DomainName";
              "HostedZoneId"; "Region" ] /\
     outcome (handler (mkEvent (Some "Delete") (Some (delete "Region" props0))))
       (up zone0) = inl (KeyError key)) /\
  calls (handler (mkEvent (Some "Delete") (Some (delete "Region" props0))))
    (up zone0) = [] /\
  final_world (handler (mkEvent (Some "Delete") (Some (delete "Region" props0))))
    (up zone0) = up zone0.
Proof.
  apply (handler_rejects_missing_field (aws:=sim_services)).
  vm_compute. reflexivity.
Defined.

(** * Further properties of the handler *)

(** ** Helpers *)

Lemma last_char_app s t :
  t <> EmptyString -> last_char (s +:+ t) = last_char t.
Proof.
  intros Ht. induction s as [|a s IH]; [done|].
  change (String a s +:+ t) with (String a (s +:+ t)).
  destruct (s +:+ t) as [|b u] eqn:E.
  - destruct s as [|c s'].
    + change (t = EmptyString) in E. congruence.
    + change (String c (s' +:+ t) = EmptyString) in E. discriminate.
  - rewrite <- IH. done.
Qed.

(** What stripping the dots and comparing amounts to, for a name that does
    not end with a dot. *)
Lemma rstrip_eq_iff name s :
  last_char name <> Some "."%char ->
  rstrip "." s = name <-> exists n, s = name +:+ replicate_char n ".".
Proof.
  intros Hl. split.
  - intros <-. apply rstrip_decompose.
  - intros [n ->]. by apply rstrip_app_replicate.
Qed.

Section Dispatch.
Context {W : Type} {aws : AwsServices W}.

(** Starting an operation after some log lines changes neither its
    outcome, nor its calls, nor the world it leaves. *)
Lemma dispatched_after_log rt d z r (w : W) msg :
  let res := dispatched rt d z r (mkState w [Log INFO msg]) in
  fst res = outcome (dispatched rt d z r) w /\
  calls_of (trace (snd res)) = calls (dispatched rt d z r) w /\
  world (snd res) = final_world (dispatched rt d z r) w.
Proof.
  unfold dispatched. observe.
  destruct (String.eqb rt "Create" || String.eqb rt "Update").
  - rewrite !create_or_update_eq. simpl.
    destruct (boto3_client_ses r) as [e|[]]; [done|].
    destruct (ses_verify_domain_identity r d w) as [[e|resp] w1]; [done|].
    by destruct (route53_change_resource_record_sets z _ w1) as [[e|cr] w2].
  - destruct (String.eqb rt "Delete"); [|done].
    rewrite !delete_verification_eq. simpl.
    destruct (route53_list_resource_record_sets z _ "TXT" w) as [[e|resp] w1];
      [done|].
    destruct (find _ (ResourceRecordSets resp)) as [rs|]; [|done].
    by destruct (route53_change_resource_record_sets z _ w1) as [[e|cr] w2].
Qed.

(** With its fields present, [handler] behaves as the operation it
    dispatches to, up to log lines. *)
Lemma handler_dispatch rt (props : gmap string string) d z r (w : W) :
  props !! "DomainName" = Some d ->
  props !! "HostedZoneId" = Some z ->
  props !! "Region" = Some r ->
  outcome (handler (mkEvent (Some rt) (Some props))) w
  = outcome (dispatched rt d z r) w /\
  calls (handler (mkEvent (Some rt) (Some props))) w
  = calls (dispatched rt d z r) w /\
  final_world (handler (mkEvent (Some rt) (Some props))) w
  = final_world (dispatched rt d z r) w.
Proof.
  intros Hd Hz Hr.
  pose proof (dispatched_after_log rt d z r w
    ("Processing " +:+ rt +:+ " for domain " +:+ d +:+ " in region " +:+ r))
    as (Ho & Hc & Hw).
  unfold outcome, calls, final_world, run at 1 3 5.
  rewrite (handler_eq rt props d z r) by done. simpl.
  fold (dispatched rt d z r).
  destruct (dispatched rt d z r (mkState w _)) as [[e|a] s'] eqn:E; simpl in *;
    rewrite ?calls_of_app, ?app_nil_r; done.
Qed.

(** The calls of the two operations, by cases. *)
Lemma create_or_update_calls d z r (w : W) :
  calls (create_or_update_verification d z r) w
  = match boto3_client_ses r with
    | inl _ => []
    | inr _ =>
        match ses_verify_domain_identity r d w with
        | (inl _, _) => [ SesVerifyDomainIdentity r d ]
        | (inr resp, _) =>
            [ SesVerifyDomainIdentity r d;
              Route53ChangeResourceRecordSets z
                (upsert_batch d (VerificationToken resp)) ]
        end
    end.
Proof.
  observe. rewrite create_or_update_eq. simpl.
  destruct (boto3_client_ses r) as [e|[]]; [done|].
  destruct (ses_verify_domain_identity r d w) as [[e|resp] w1]; [done|].
  by destruct (route53_change_resource_record_sets z _ w1) as [[e|cr] w2].
Qed.

Lemma delete_calls d z r (w : W) :
  calls (delete_verification d z r) w
  = Route53ListResourceRecordSets z ("_amazonses." +:+ d) "TXT" ::
    match route53_list_resource_record_sets z ("_amazonses." +:+ d) "TXT" w with
    | (inl _, _) => []
    | (inr resp, _) =>
        match find (is_verification_record ("_amazonses." +:+ d))
                (ResourceRecordSets resp) with
        | Some rs => [ Route53ChangeResourceRecordSets z (delete_batch rs) ]
        | None => []
        end
    end.
Proof.
  observe. rewrite delete_verification_eq. simpl.
  destruct (route53_list_resource_record_sets z _ "TXT" w) as [[e|resp] w1];
    [done|].
  destruct (find _ (ResourceRecordSets resp)) as [rs|]; [|done].
  by destruct (route53_change_resource_record_sets z _ w1) as [[e|cr] w2].
Qed.

(** The run of [handler] on an event that lacks a field. *)
Lemma handler_missing_run ev (w : W) :
  has_required_fields ev = false ->
  exists key,
    run (handler ev) w
    = (inl (KeyError key),
       mkState w [ Log ERROR ("Error processing request: " +:+ str_exn (KeyError key)) ]).
Proof.
  destruct ev as [[rt|] [props|]]; unfold has_required_fields, run; simpl;
    unfold handler, try_except, bind, getitem; simpl; try by eexists.
  destruct (props !! "DomainName") as [d|]; simpl; [|by eexists].
  destruct (props !! "HostedZoneId") as [z|]; simpl; [|by eexists].
  destruct (props !! "Region") as [r|]; simpl; [done|by eexists].
Qed.

(** C9.  Two events that differ only in that one says Create and the other
    Update are handled alike: from the same world, [handler] gives the same
    outcome, makes the same calls in the same order and leaves the same
    world.  When the three properties are there, both are routed to
    [create_or_update_verification] on the domain, zone and region of the
    event: the outcome of [handler], its calls and the world it leaves are
    those of that operation, for Create and for Update. *)
Theorem handler_create_update_alike
    (props : option (gmap string string)) (w : W) :
  (outcome (handler (mkEvent (Some "Create") props)) w
   = outcome (handler (mkEvent (Some "Update") props)) w /\
   calls (handler (mkEvent (Some "Create") props)) w
   = calls (handler (mkEvent (Some "Update") props)) w /\
   final_world (handler (mkEvent (Some "Create") props)) w
   = final_world (handler (mkEvent (Some "Update") props)) w) /\
  forall (p : gmap string string) d z r,
    props = Some p ->
    p !! "DomainName" = Some d ->
    p !! "HostedZoneId" = Some z ->
    p !! "Region" = Some r ->
    forall rt,
      rt = "Create" \/ rt = "Update" ->
      outcome (handler (mkEvent (Some rt) props)) w
      = outcome (create_or_update_verification d z r) w /\
      calls (handler (mkEvent (Some rt) props)) w
      = calls (create_or_update_verification d z r) w /\
      final_world (handler (mkEvent (Some rt) props)) w
      = final_world (create_or_update_verification d z r) w.
Proof.
  split; [apply handler_create_update_same_run|].
  intros p d z r -> Hd Hz Hr rt Hrt.
  destruct (handler_dispatch rt p d z r w Hd Hz Hr) as (Ho & Hc & Hw).
  destruct Hrt as [-> | ->];
    change (dispatched _ d z r) with (create_or_update_verification d z r) in *;
    done.
Qed.

End Dispatch.

(** ** Dispatch *)

Section Extras.
Context {W : Type} {aws : AwsServices W}.

(** X1.  On a Delete event that has its three properties, [handler]
    returns the canonical result and never raises, whatever the services
    answer; its calls and the world it leaves are those of
    [delete_verification]. *)
Theorem handler_delete_never_raises (props : gmap string string) d z r (w : W) :
  props !! "DomainName" = Some d ->
  props !! "HostedZoneId" = Some z ->
  props !! "Region" = Some r ->
  outcome (handler (mkEvent (Some "Delete") (Some props))) w
  = inr (mkResult ("ses-verification-" +:+ d) None) /\
  calls (handler (mkEvent (Some "Delete") (Some props))) w
  = calls (delete_verification d z r) w /\
  final_world (handler (mkEvent (Some "Delete") (Some props))) w
  = final_world (delete_verification d z r) w.
Proof.
  intros Hd Hz Hr.
  destruct (handler_dispatch "Delete" props d z r w Hd Hz Hr) as (Ho & Hc & Hw).
  change (dispatched "Delete" d z r) with (delete_verification d z r) in *.
  rewrite Ho, Hc, Hw. split; [apply delete_outcome|done].
Qed.

(** X2.  On a Create or Update event that has its three properties, the
    outcome of [handler], its calls and the world it leaves are those of
    [create_or_update_verification] on the domain, zone and region of the
    event: a failure of the operation reaches the caller of [handler]
    unchanged. *)
Theorem handler_create_update_routes rt (props : gmap string string) d z r (w : W) :
  rt = "Create" \/ rt = "Update" ->
  props !! "DomainName" = Some d ->
  props !! "HostedZoneId" = Some z ->
  props !! "Region" = Some r ->
  outcome (handler (mkEvent (Some rt) (Some props))) w
  = outcome (create_or_update_verification d z r) w /\
  calls (handler (mkEvent (Some rt) (Some props))) w
  = calls (create_or_update_verification d z r) w /\
  final_world (handler (mkEvent (Some rt) (Some props))) w
  = final_world (create_or_update_verification d z r) w.
Proof.
  intros Hrt Hd Hz Hr.
  destruct (handler_dispatch rt props d z r w Hd Hz Hr) as (Ho & Hc & Hw).
  destruct Hrt as [-> | ->];
    change (dispatched _ d z r) with (create_or_update_verification d z r) in *;
    done.
Qed.

(** X3.  The KeyError of [handler] names the first absent key in the order
    the code reads them: RequestType, ResourceProperties, DomainName,
    HostedZoneId, Region.  In each case the world is untouched and the only
    effect is the ERROR line "Error processing request: " followed by the
    key between single quotes. *)
Theorem handler_reports_first_missing_key (w : W) :
  (forall props, run (handler (mkEvent None props)) w
                 = rejected w (KeyError "RequestType")) /\
  (forall rt, run (handler (mkEvent (Some rt) None)) w
              = rejected w (KeyError "ResourceProperties")) /\
  (forall rt (props : gmap string string),
     props !! "DomainName" = None ->
     run (handler (mkEvent (Some rt) (Some props))) w
     = rejected w (KeyError "DomainName")) /\
  (forall rt (props : gmap string string),
     is_Some (props !! "DomainName") ->
     props !! "HostedZoneId" = None ->
     run (handler (mkEvent (Some rt) (Some props))) w
     = rejected w (KeyError "HostedZoneId")) /\
  (forall rt (props : gmap string string),
     is_Some (props !! "DomainName") ->
     is_Some (props !! "HostedZoneId") ->
     props !! "Region" = None ->
     run (handler (mkEvent (Some rt) (Some props))) w
     = rejected w (KeyError "Region")).
Proof.
  unfold run, rejected, handler, try_except, bind, getitem; simpl.
  split; [|split; [|split; [|split]]].
  - done.
  - done.
  - intros rt props ->. done.
  - intros rt props [d ->] ->. done.
  - intros rt props [d ->] [z ->] ->. done.
Qed.

(** X4.  Whenever [handler] raises, for whatever reason, the last thing it
    did was to log, at level ERROR, "Error processing request: " followed
    by the text of the exception it raises. *)
Theorem handler_logs_what_it_raises ev (w : W) e :
  outcome (handler ev) w = inl e ->
  last (full_trace (handler ev) w)
  = Some (Log ERROR ("Error processing request: " +:+ str_exn e)).
Proof.
  destruct (has_required_fields ev) eqn:Hreq.
  - apply has_required_fields_true in Hreq
      as (rt & props & d & z & r & -> & Hd & Hz & Hr).
    unfold outcome, full_trace, run.
    rewrite (handler_eq rt props d z r) by done. simpl.
    match goal with |- context [match ?x with _ => _ end] =>
      destruct x as [[e'|a] s'] end; simpl; [|done].
    intros [= ->]. apply last_snoc.
  - destruct (handler_missing_run ev w Hreq) as [key Hrun].
    unfold outcome, full_trace. rewrite Hrun. simpl. by intros [= <-].
Qed.

(** X5.  One invocation of [handler] makes at most two remote calls,
    whatever the event and whatever the services answer. *)
Theorem handler_at_most_two_calls ev (w : W) :
  length (calls (handler ev) w) <= 2.
Proof.
  destruct (has_required_fields ev) eqn:Hreq.
  - apply has_required_fields_true in Hreq
      as (rt & props & d & z & r & -> & Hd & Hz & Hr).
    destruct (handler_dispatch rt props d z r w Hd Hz Hr) as (_ & -> & _).
    unfold dispatched.
    destruct (String.eqb rt "Create" || String.eqb rt "Update").
    + rewrite create_or_update_calls.
      destruct (boto3_client_ses r) as [e|[]]; [simpl; lia|].
      destruct (ses_verify_domain_identity r d w) as [[e|resp] w1]; simpl; lia.
    + destruct (String.eqb rt "Delete"); [|simpl; lia].
      rewrite delete_calls.
      destruct (route53_list_resource_record_sets z _ "TXT" w)
        as [[e|resp] w1]; simpl; [lia|].
      destruct (find _ (ResourceRecordSets resp)); simpl; lia.
  - destruct (handler_missing_run ev w Hreq) as [key Hrun].
    unfold calls. rewrite Hrun. simpl. lia.
Qed.

(** X6.  The calls of [handler] stay within what the event names: a
    verification call is for the Region and DomainName of the event, a
    listing is on its HostedZoneId, from "_amazonses." followed by the
    domain and type TXT, and a record change goes to its HostedZoneId.  No
    other zone, region or domain is ever addressed. *)
Theorem handler_calls_within_event rt (props : gmap string string) d z r (w : W) :
  props !! "DomainName" = Some d ->
  props !! "HostedZoneId" = Some z ->
  props !! "Region" = Some r ->
  Forall (within d z r) (calls (handler (mkEvent (Some rt) (Some props))) w).
Proof.
  intros Hd Hz Hr.
  destruct (handler_dispatch rt props d z r w Hd Hz Hr) as (_ & -> & _).
  unfold dispatched.
  destruct (String.eqb rt "Create" || String.eqb rt "Update").
  - rewrite create_or_update_calls.
    destruct (boto3_client_ses r) as [e|[]]; [constructor|].
    destruct (ses_verify_domain_identity r d w) as [[e|resp] w1];
      repeat constructor.
  - destruct (String.eqb rt "Delete"); [|constructor].
    rewrite delete_calls.
    destruct (route53_list_resource_record_sets z _ "TXT" w) as [[e|resp] w1];
      [repeat constructor|].
    destruct (find _ (ResourceRecordSets resp)); repeat constructor.
Qed.

(** ** Teardown *)

(** X7.  When the listing call raises, [delete_verification] attempts no
    record change: the listing is its only call, the only log line is the
    ERROR line "Error during cleanup: " followed by the text of the
    exception, and the world is left as the failed listing left it. *)
Theorem delete_stops_when_listing_raises d z r (w : W) e w1 :
  route53_list_resource_record_sets z ("_amazonses." +:+ d) "TXT" w
  = (inl e, w1) ->
  run (delete_verification d z r) w
  = (inr (mkResult ("ses-verification-" +:+ d) None),
     mkState w1
       [ Call (Route53ListResourceRecordSets z ("_amazonses." +:+ d) "TXT");
         Log ERROR ("Error during cleanup: " +:+ str_exn e) ]).
Proof.
  intros Hl. unfold run. rewrite delete_verification_eq. simpl. by rewrite Hl.
Qed.

(** X8.  When the listing holds no matching record set,
    [delete_verification] writes nothing to the log, at any level: its
    whole trace is the listing call. *)
Theorem delete_is_silent_without_match d z r (w : W) resp w1 :
  route53_list_resource_record_sets z ("_amazonses." +:+ d) "TXT" w
  = (inr resp, w1) ->
  Forall (fun x => ~ verification_record ("_amazonses." +:+ d) x)
    (ResourceRecordSets resp) ->
  run (delete_verification d z r) w
  = (inr (mkResult ("ses-verification-" +:+ d) None),
     mkState w1
       [ Call (Route53ListResourceRecordSets z ("_amazonses." +:+ d) "TXT") ]).
Proof.
  intros Hl Hnone. unfold run. rewrite delete_verification_eq. simpl.
  rewrite Hl, find_nothing; [done|].
  eapply Forall_impl; [exact Hnone|].
  intros x Hx. by apply is_verification_record_false.
Qed.

(** X9.  When the record change of the first matching record set raises,
    [delete_verification] swallows the exception: it returns the canonical
    result, logs "Error during cleanup: " followed by the text of the
    exception at level ERROR, does not log the deletion, and tries no other
    record set. *)
Theorem delete_swallows_change_failure d z r (w : W) resp w1 pre rs post e w2 :
  route53_list_resource_record_sets z ("_amazonses." +:+ d) "TXT" w
  = (inr resp, w1) ->
  ResourceRecordSets resp = (pre ++ rs :: post)%list ->
  Forall (fun x => ~ verification_record ("_amazonses." +:+ d) x) pre ->
  verification_record ("_amazonses." +:+ d) rs ->
  route53_change_resource_record_sets z
    (mkChangeBatch [ mkChange "DELETE" rs ]) w1 = (inl e, w2) ->
  run (delete_verification d z r) w
  = (inr (mkResult ("ses-verification-" +:+ d) None),
     mkState w2
       [ Call (Route53ListResourceRecordSets z ("_amazonses." +:+ d) "TXT");
         Call (Route53ChangeResourceRecordSets z
                 (mkChangeBatch [ mkChange "DELETE" rs ]));
         Log ERROR ("Error during cleanup: " +:+ str_exn e) ]).
Proof.
  intros Hl HL Hpre Hrs Hc. unfold run. rewrite delete_verification_eq. simpl.
  rewrite Hl, HL, find_first.
  - unfold delete_batch. by rewrite Hc.
  - eapply Forall_impl; [exact Hpre|].
    intros x Hx. by apply is_verification_record_false.
  - by apply is_verification_record_iff.
Qed.

(** X10.  For an empty domain name, or one that ends with a dot,
    [delete_verification] never submits a record change, whatever the
    listing holds: the record name it compares with ends with a dot, and a
    name stripped of its trailing dots never does. *)
Theorem delete_never_matches_dotted_domain d z r (w : W) :
  d = EmptyString \/ last_char d = Some "."%char ->
  calls (delete_verification d z r) w
  = [ Route53ListResourceRecordSets z ("_amazonses." +:+ d) "TXT" ].
Proof.
  intros Hd.
  assert (Hlast : last_char ("_amazonses." +:+ d) = Some "."%char).
  { destruct Hd as [-> | Hd]; [done|].
    rewrite last_char_app; [done|]. intros ->. discriminate. }
  rewrite delete_calls.
  destruct (route53_list_resource_record_sets z _ "TXT" w) as [[e|resp] w1];
    [done|].
  rewrite find_nothing; [done|].
  apply Forall_forall. intros rs _.
  apply is_verification_record_false. intros [Hn _].
  apply (rstrip_last "." (Name rs)). by rewrite Hn.
Qed.

(** X11.  For a domain name that is not empty and does not end with a dot,
    the test of line 96 accepts exactly the record sets of type TXT whose
    name is "_amazonses." followed by the domain and then any number of
    dots, none included. *)
Theorem verification_record_rule d rs :
  d <> EmptyString ->
  last_char d <> Some "."%char ->
  is_verification_record ("_amazonses." +:+ d) rs = true <->
  (exists n, Name rs = ("_amazonses." +:+ d) +:+ replicate_char n ".") /\
  Type_ rs = "TXT".
Proof.
  intros Hne Hl.
  rewrite is_verification_record_iff. unfold verification_record.
  rewrite rstrip_eq_iff; [done|].
  by rewrite last_char_app.
Qed.

(** X12.  Teardown undoes provisioning.  For a domain name that is not
    empty and does not end with a dot, when the listing starts with a TXT
    record set named as [create_or_update_verification] names it, with or
    without the dots of the absolute form, [delete_verification] submits
    the DELETE of that record set, with the TTL and values the listing
    gave. *)
Theorem delete_removes_created_record d z r (w : W) resp w1 n ttl values rest :
  d <> EmptyString ->
  last_char d <> Some "."%char ->
  route53_list_resource_record_sets z ("_amazonses." +:+ d) "TXT" w
  = (inr resp, w1) ->
  ResourceRecordSets resp
  = mkResourceRecordSet (("_amazonses." +:+ d) +:+ replicate_char n ".")
      "TXT" ttl values :: rest ->
  calls (delete_verification d z r) w
  = [ Route53ListResourceRecordSets z ("_amazonses." +:+ d) "TXT";
      Route53ChangeResourceRecordSets z
        (mkChangeBatch
           [ mkChange "DELETE"
               (mkResourceRecordSet
                  (("_amazonses." +:+ d) +:+ replicate_char n ".")
                  "TXT" ttl values) ]) ].
Proof.
  intros Hne Hlast Hl HL.
  rewrite delete_calls, Hl, HL. simpl.
  assert (Hm : is_verification_record ("_amazonses." +:+ d)
                 (mkResourceRecordSet
                    (("_amazonses." +:+ d) +:+ replicate_char n ".")
                    "TXT" ttl values) = true).
  { apply is_verification_record_iff. split; [|done]. cbn [Name].
    apply rstrip_app_replicate. by rewrite last_char_app. }
  by rewrite Hm.
Qed.

(** ** Provisioning *)

(** X13.  [create_or_update_verification] never deletes and never lists:
    it submits at most one record change, and every change it submits is an
    UPSERT of the TXT record set named "_amazonses." followed by the
    domain. *)
Theorem create_or_update_only_upserts d z r (w : W) :
  length (submitted_changes (calls (create_or_update_verification d z r) w)) <= 1 /\
  forall ch,
    In ch (submitted_changes (calls (create_or_update_verification d z r) w)) ->
    Action ch = "UPSERT" /\
    Name (ChangeResourceRecordSet ch) = "_amazonses." +:+ d /\
    Type_ (ChangeResourceRecordSet ch) = "TXT".
Proof.
  rewrite create_or_update_calls.
  destruct (boto3_client_ses r) as [e|[]]; [simpl; split; [lia|tauto]|].
  destruct (ses_verify_domain_identity r d w) as [[e|resp] w1]; simpl.
  - split; [lia|tauto].
  - split; [lia|]. by intros ch [<-|[]].
Qed.

(** X14.  The SES client being built, as soon as the verification service
    answers, [create_or_update_verification] writes the token to the log at
    level INFO, in clear, whether the record change then succeeds or
    raises. *)
Theorem create_or_update_logs_token d z r (w : W) resp w1 :
  boto3_client_ses r = inr tt ->
  ses_verify_domain_identity r d w = (inr resp, w1) ->
  In ("Got verification token: " +:+ VerificationToken resp)
     (logged INFO (full_trace (create_or_update_verification d z r) w)).
Proof.
  intros Hb Hv. unfold full_trace, run. rewrite create_or_update_eq, Hb. simpl.
  rewrite Hv.
  destruct (route53_change_resource_record_sets z _ w1) as [[e|cr] w2]; simpl;
    tauto.
Qed.

(** X15.  On a Create or Update event that has its three properties and
    fails with an exception: when the SES client was built, so that the
    verification call or the record change raised, the failure is logged
    twice at level ERROR, by the operation and then by [handler], "Failed
    to create verification record: " and "Error processing request: ", each
    followed by the text of the exception; when building the SES client
    raised, only the line of [handler] is logged.  Nothing else is logged
    at that level. *)
Theorem handler_logs_create_failure
    rt (props : gmap string string) d z r (w : W) e :
  rt = "Create" \/ rt = "Update" ->
  props !! "DomainName" = Some d ->
  props !! "HostedZoneId" = Some z ->
  props !! "Region" = Some r ->
  outcome (handler (mkEvent (Some rt) (Some props))) w = inl e ->
  logged ERROR (full_trace (handler (mkEvent (Some rt) (Some props))) w)
  = match boto3_client_ses r with
    | inr _ =>
        [ "Failed to create verification record: " +:+ str_exn e;
          "Error processing request: " +:+ str_exn e ]
    | inl _ => [ "Error processing request: " +:+ str_exn e ]
    end.
Proof.
  intros Hrt Hd Hz Hr.
  unfold outcome, full_trace, run.
  rewrite (handler_eq rt props d z r) by done. simpl.
  assert (Hb : (String.eqb rt "Create" || String.eqb rt "Update") = true)
    by (destruct Hrt as [-> | ->]; done).
  rewrite Hb, create_or_update_eq. simpl.
  destruct (boto3_client_ses r) as [e'|[]]; simpl; [by intros [= ->]|].
  destruct (ses_verify_domain_identity r d w) as [[e'|resp] w1]; simpl.
  - by intros [= ->].
  - destruct (route53_change_resource_record_sets z _ w1) as [[e'|cr] w2];
      simpl; [|done].
    by intros [= ->].
Qed.

(** X16.  When building the SES client raises, as botocore does for a
    region name that is not well formed, [create_or_update_verification]
    raises that exception at once: it makes no remote call and writes no
    log line, the [try] of line 37 not being entered; through [handler]
    the only effects are the two log lines of lines 19 and 29. *)
Theorem create_or_update_raises_without_client
    rt (props : gmap string string) d z r (w : W) e :
  boto3_client_ses r = inl e ->
  run (create_or_update_verification d z r) w = (inl e, mkState w []) /\
  (rt = "Create" \/ rt = "Update" ->
   props !! "DomainName" = Some d ->
   props !! "HostedZoneId" = Some z ->
   props !! "Region" = Some r ->
   run (handler (mkEvent (Some rt) (Some props))) w
   = (inl e,
      mkState w
        [ Log INFO ("Processing " +:+ rt +:+ " for domain " +:+ d
                    +:+ " in region " +:+ r);
          Log ERROR ("Error processing request: " +:+ str_exn e) ])).
Proof.
  intros Hb. split.
  - unfold run. by rewrite create_or_update_eq, Hb.
  - intros Hrt Hd Hz Hr. unfold run.
    rewrite (handler_eq rt props d z r) by done. simpl.
    assert (Hc : (String.eqb rt "Create" || String.eqb rt "Update") = true)
      by (destruct Hrt as [-> | ->]; done).
    by rewrite Hc, create_or_update_eq, Hb.
Qed.

End Extras.

(** ** The further properties on concrete runs *)

Lemma handler_delete_never_raises_witness :
  outcome (handler (event0 "Delete")) change_down
  = inr (mkResult "ses-verification-example.com" None) /\
  calls (handler (event0 "Delete")) change_down
  = calls (delete_verification "example.com" "Z123" "us-east-1") change_down /\
  final_world (handler (event0 "Delete")) change_down
  = final_world (delete_verification "example.com" "Z123" "us-east-1") change_down.
Proof.
  apply (handler_delete_never_raises (aws:=sim_services) props0
           "example.com" "Z123" "us-east-1" change_down);
    vm_compute; reflexivity.
Defined.

Lemma handler_create_update_routes_witness :
  outcome (handler (event0 "Update")) (up zone0)
  = outcome (create_or_update_verification "example.com" "Z123" "us-east-1")
      (up zone0) /\
  calls (handler (event0 "Update")) (up zone0)
  = calls (create_or_update_verification "example.com" "Z123" "us-east-1")
      (up zone0) /\
  final_world (handler (event0 "Update")) (up zone0)
  = final_world (create_or_update_verification "example.com" "Z123" "us-east-1")
      (up zone0).
Proof.
  apply (handler_create_update_routes (aws:=sim_services) "Update" props0
           "example.com" "Z123" "us-east-1" (up zone0));
    [right; reflexivity | vm_compute; reflexivity ..].
Defined.

Lemma handler_reports_first_missing_key_witness :
  run (handler (mkEvent (Some "Delete") (Some (delete "DomainName" props0))))
    (up zone0) = rejected (up zone0) (KeyError "DomainName") /\
  run (handler (mkEvent (Some "Delete")
                  (Some (delete "Region" (delete "HostedZoneId" props0)))))
    (up zone0) = rejected (up zone0) (KeyError "HostedZoneId") /\
  run (handler (mkEvent (Some "Create") (Some (delete "Region" props0))))
    (up zone0) = rejected (up zone0) (KeyError "Region").
Proof.
  destruct (handler_reports_first_missing_key (aws:=sim_services) (up zone0))
    as (_ & _ & Hdomain & Hzone & Hregion).
  split; [|split].
  - apply Hdomain. vm_compute. reflexivity.
  - apply Hzone; [eexists | ]; vm_compute; reflexivity.
  - apply Hregion; [eexists | eexists | ]; vm_compute; reflexivity.
Defined.

Lemma handler_logs_what_it_raises_witness :
  last (full_trace (handler (event0 "Replace")) (up zone0))
  = Some (Log ERROR "Error processing request: Unknown request type: Replace").
Proof.
  apply (handler_logs_what_it_raises (aws:=sim_services) (event0 "Replace")
           (up zone0) (ValueError "Unknown request type: Replace")).
  vm_compute. reflexivity.
Defined.

Lemma handler_calls_within_event_witness :
  Forall (within "example.com" "Z123" "us-east-1")
    (calls (handler (event0 "Create")) (up zone0)).
Proof.
  apply (handler_calls_within_event (aws:=sim_services) "Create" props0);
    vm_compute; reflexivity.
Defined.

Lemma delete_stops_when_listing_raises_witness :
  run (delete_verification "example.com" "Z123" "us-east-1") list_down
  = (inr (mkResult "ses-verification-example.com" None),
     mkState list_down
       [ Call (Route53ListResourceRecordSets "Z123" "_amazonses.example.com" "TXT");
         Log ERROR "Error during cleanup: Throttling" ]).
Proof.
  apply (delete_stops_when_listing_raises (aws:=sim_services)
           "example.com" "Z123" "us-east-1" list_down
           (ServiceError "Throttling") list_down).
  reflexivity.
Defined.

Lemma delete_is_silent_without_match_witness :
  run (delete_verification "example.com" "Z123" "us-east-1") (up [cname_rs])
  = (inr (mkResult "ses-verification-example.com" None),
     mkState (up [cname_rs])
       [ Call (Route53ListResourceRecordSets "Z123" "_amazonses.example.com" "TXT") ]).
Proof.
  apply (delete_is_silent_without_match (aws:=sim_services)
           "example.com" "Z123" "us-east-1" (up [cname_rs])
           (mkListResponse [cname_rs]) (up [cname_rs])).
  - reflexivity.
  - repeat constructor; intros [Hn Ht]; vm_compute in Hn, Ht; discriminate.
Defined.

Lemma delete_swallows_change_failure_witness :
  run (delete_verification "example.com" "Z123" "us-east-1") change_down
  = (inr (mkResult "ses-verification-example.com" None),
     mkState change_down
       [ Call (Route53ListResourceRecordSets "Z123" "_amazonses.example.com" "TXT");
         Call (Route53ChangeResourceRecordSets "Z123"
                 (mkChangeBatch [ mkChange "DELETE" verification_rs ]));
         Log ERROR "Error during cleanup: InvalidChangeBatch" ]).
Proof.
  apply (delete_swallows_change_failure (aws:=sim_services)
           "example.com" "Z123" "us-east-1" change_down
           (mkListResponse zone0) change_down
           [ txt "_amazonses.example.com.au." "other"; cname_rs ]
           verification_rs [ txt "_amazonses.example.com" "second" ]
           (ServiceError "InvalidChangeBatch") change_down).
  - reflexivity.
  - reflexivity.
  - repeat constructor; intros [Hn Ht]; vm_compute in Hn, Ht; discriminate.
  - split; reflexivity.
  - reflexivity.
Defined.

Lemma delete_never_matches_dotted_domain_witness :
  calls (delete_verification "example.com." "Z123" "us-east-1") (up zone0)
  = [ Route53ListResourceRecordSets "Z123" "_amazonses.example.com." "TXT" ].
Proof.
  apply (delete_never_matches_dotted_domain (aws:=sim_services)
           "example.com." "Z123" "us-east-1" (up zone0)).
  right. reflexivity.
Defined.

Lemma verification_record_rule_witness :
  is_verification_record "_amazonses.example.com" verification_rs = true <->
  (exists n, Name verification_rs
             = "_amazonses.example.com" +:+ replicate_char n ".") /\
  Type_ verification_rs = "TXT".
Proof.
  apply (verification_record_rule "example.com" verification_rs);
    intros Heq; discriminate Heq.
Defined.

Lemma delete_removes_created_record_witness :
  calls (delete_verification "example.com" "Z123" "us-east-1")
    (up [ verification_rs; cname_rs ])
  = [ Route53ListResourceRecordSets "Z123" "_amazonses.example.com" "TXT";
      Route53ChangeResourceRecordSets "Z123"
        (mkChangeBatch [ mkChange "DELETE" verification_rs ]) ].
Proof.
  apply (delete_removes_created_record (aws:=sim_services)
           "example.com" "Z123" "us-east-1" (up [ verification_rs; cname_rs ])
           (mkListResponse [ verification_rs; cname_rs ])
           (up [ verification_rs; cname_rs ])
           1 (Some 1800%Z) [ mkResourceRecord "old-token" ] [ cname_rs ]).
  - intros Heq; discriminate Heq.
  - intros Heq; discriminate Heq.
  - reflexivity.
  - reflexivity.
Defined.

Lemma create_or_update_only_upserts_witness :
  Action (mkChange "UPSERT"
            (mkResourceRecordSet "_amazonses.example.com" "TXT" (Some 300%Z)
               [ mkResourceRecord
                   (String dquote ("tok-example.com" +:+ String dquote EmptyString)) ]))
  = "UPSERT".
Proof.
  destruct (create_or_update_only_upserts (aws:=sim_services)
              "example.com" "Z123" "us-east-1" (up zone0)) as [_ Hall].
  refine (proj1 (Hall _ _)). vm_compute. left. reflexivity.
Defined.

Lemma create_or_update_logs_token_witness :
  In "Got verification token: tok-example.com"
     (logged INFO
        (full_trace (create_or_update_verification "example.com" "Z123" "us-east-1")
           change_down)).
Proof.
  apply (create_or_update_logs_token (aws:=sim_services)
           "example.com" "Z123" "us-east-1" change_down
           (mkVerifyResponse "tok-example.com") change_down);
    reflexivity.
Defined.

Lemma handler_logs_create_failure_witness :
  logged ERROR (full_trace (handler (event0 "Update")) ses_down)
  = [ "Failed to create verification record: SES unavailable";
      "Error processing request: SES unavailable" ] /\
  logged ERROR (full_trace (handler (event_in "us east 1" "Create")) (up zone0))
  = [ "Error processing request: Provided region_name 'us east 1' doesn't match a supported format." ].
Proof.
  split.
  - apply (handler_logs_create_failure (aws:=sim_services) "Update" props0
             "example.com" "Z123" "us-east-1" ses_down
             (ServiceError "SES unavailable"));
      [right; reflexivity | vm_compute; reflexivity ..].
  - apply (handler_logs_create_failure (aws:=sim_services) "Create"
             (<["Region" := "us east 1"]> props0)
             "example.com" "Z123" "us east 1" (up zone0)
             (ServiceError
                "Provided region_name 'us east 1' doesn't match a supported format."));
      [left; reflexivity | vm_compute; reflexivity ..].
Defined.

Lemma create_or_update_raises_without_client_witness :
  run (create_or_update_verification "example.com" "Z123" "us east 1") (up zone0)
  = (inl (ServiceError
            "Provided region_name 'us east 1' doesn't match a supported format."),
     mkState (up zone0) []) /\
  run (handler (event_in "us east 1" "Create")) (up zone0)
  = (inl (ServiceError
            "Provided region_name 'us east 1' doesn't match a supported format."),
     mkState (up zone0)
       [ Log INFO "Processing Create for domain example.com in region us east 1";
         Log ERROR "Error processing request: Provided region_name 'us east 1' doesn't match a supported format." ]).
Proof.
  destruct (create_or_update_raises_without_client (aws:=sim_services)
              "Create" (<["Region" := "us east 1"]> props0)
              "example.com" "Z123" "us east 1" (up zone0)
              (ServiceError
                 "Provided region_name 'us east 1' doesn't match a supported format.")
              eq_refl) as [Hop Hhandler].
  split; [exact Hop|].
  apply Hhandler; [left; reflexivity | vm_compute; reflexivity ..].
Defined.

Lemma handler_create_update_alike_witness :
  (outcome (handler (event0 "Create")) (up zone0)
   = outcome (create_or_update_verification "example.com" "Z123" "us-east-1")
       (up zone0) /\
   calls (handler (event0 "Create")) (up zone0)
   = calls (create_or_update_verification "example.com" "Z123" "us-east-1")
       (up zone0) /\
   final_world (handler (event0 "Create")) (up zone0)
   = final_world (create_or_update_verification "example.com" "Z123" "us-east-1")
       (up zone0)) /\
  (outcome (handler (event0 "Update")) (up zone0)
   = outcome (create_or_update_verification "example.com" "Z123" "us-east-1")
       (up zone0) /\
   calls (handler (event0 "Update")) (up zone0)
   = calls (create_or_update_verification "example.com" "Z123" "us-east-1")
       (up zone0) /\
   final_world (handler (event0 "Update")) (up zone0)
   = final_world (create_or_update_verification "example.com" "Z123" "us-east-1")
       (up zone0)).
Proof.
  destruct (handler_create_update_alike (aws:=sim_services)
              (Some props0) (up zone0)) as [_ Hroute].
  split.
  - apply (Hroute props0 "example.com" "Z123" "us-east-1" eq_refl);
      [vm_compute; reflexivity .. | left; reflexivity].
  - apply (Hroute props0 "example.com" "Z123" "us-east-1" eq_refl);
      [vm_compute; reflexivity .. | right; reflexivity].
Defined.

(** [repr] on keys: plain, with a single quote, with both quotes, with a
    tab and a control character. *)
Example py_repr_examples :
  py_repr "Region" = "'Region'" /\
  py_repr "it's" = String dquote ("it's" +:+ String dquote EmptyString) /\
  py_repr ("a'b" +:+ String dquote "c") = "'a\'b" +:+ String dquote "c'" /\
  py_repr (String (ascii_of_nat 9) (String (ascii_of_nat 7) "\"))
  = "'\t\x07\\'".
Proof. repeat split. Qed.
